(** * codemapper fixtures: [test_files/sample.py] and [test_files/test.py]

    A shallow embedding of the two Python fixture modules, together with the
    fragment of Python's object model and arithmetic that their bodies use:
    integers of arbitrary precision, binary64 floats, instance dictionaries,
    method resolution along the class's MRO, and exceptions. *)

From Stdlib Require Import ZArith Floats String List Lia.
From stdpp Require Import base option gmap strings.

Local Open Scope string_scope.
Local Open Scope Z_scope.

(** ** Python values and arithmetic *)

Module Py.

(** The numbers of the embedding: [int] (unbounded) and [float] (IEEE 754
    binary64, the kernel's primitive floats). *)
Inductive number :=
  | Int (z : Z)
  | Float (f : float).

Definition loc := positive.

Inductive value :=
  | VNone
  | VNum (n : number)
  | VStr (s : string)
  | VRef (l : loc).

(** Exceptions the modelled fragment can raise.  [SystemError] stands for a
    dangling reference, which no Python program can produce. *)
Inductive exn :=
  | TypeError
  | AttributeError
  | OverflowError
  | ZeroDivisionError
  | SystemError.

Inductive outcome (A : Type) :=
  | Ret (a : A)
  | Raise (e : exn).
Arguments Ret {A} a.
Arguments Raise {A} e.

Definition outcome_bind {A B} (o : outcome A) (k : A -> outcome B) : outcome B :=
  match o with
  | Ret a => k a
  | Raise e => Raise e
  end.

Definition outcome_map {A B} (f : A -> B) (o : outcome A) : outcome B :=
  outcome_bind o (fun a => Ret (f a)).

(** [int] to [float], as an arithmetic operator converts its [int] operand:
    correctly rounded (ties to even), [OverflowError] when the rounded value
    is out of range. *)
Definition int_to_float (z : Z) : outcome float :=
  match binary_normalize prec emax z 0 false with
  | S754_infinity _ => Raise OverflowError
  | s => Ret (SF2Prim s)
  end.

Definition as_float (n : number) : outcome float :=
  match n with
  | Int z => int_to_float z
  | Float f => Ret f
  end.

(** Lifts a binary64 operation to two numbers of which at least one is a
    float; the left operand is converted first. *)
Definition float_binop (op : float -> float -> outcome number)
    (a b : number) : outcome number :=
  outcome_bind (as_float a) (fun x =>
  outcome_bind (as_float b) (fun y => op x y)).

(** [a + b] on numbers. *)
Definition number_add (a b : number) : outcome number :=
  match a, b with
  | Int x, Int y => Ret (Int (x + y))
  | _, _ => float_binop (fun x y => Ret (Float (x + y)%float)) a b
  end.

(** [a - b] on numbers. *)
Definition number_sub (a b : number) : outcome number :=
  match a, b with
  | Int x, Int y => Ret (Int (x - y))
  | _, _ => float_binop (fun x y => Ret (Float (x - y)%float)) a b
  end.

(** [-a] on numbers. *)
Definition number_neg (a : number) : number :=
  match a with
  | Int x => Int (- x)
  | Float x => Float (- x)%float
  end.

(** [a ** b] on numbers.  An [int] raised to a non-negative [int] is exact;
    every other combination goes through the interpreter's float power
    [float_pow], which wraps the platform's [pow] and is taken as given. *)
Definition number_pow (float_pow : float -> float -> outcome number)
    (a b : number) : outcome number :=
  match a, b with
  | Int x, Int y =>
      if 0 <=? y then Ret (Int (x ^ y)) else float_binop float_pow a b
  | _, _ => float_binop float_pow a b
  end.

(** Python's [==] on numbers of the same kind. *)
Definition number_eqb (a b : number) : option bool :=
  match a, b with
  | Int x, Int y => Some (x =? y)
  | Float x, Float y => Some (x =? y)%float
  | _, _ => None
  end.

(** [a + b], [a - b] and [a ** b] on values.  Strings concatenate under
    [+]; the instances of this program define no operators of their own. *)
Definition binary_add (a b : value) : outcome value :=
  match a, b with
  | VNum x, VNum y => outcome_map VNum (number_add x y)
  | VStr x, VStr y => Ret (VStr (x ++ y))
  | _, _ => Raise TypeError
  end.

Definition binary_sub (a b : value) : outcome value :=
  match a, b with
  | VNum x, VNum y => outcome_map VNum (number_sub x y)
  | _, _ => Raise TypeError
  end.

Definition binary_pow (float_pow : float -> float -> outcome number)
    (a b : value) : outcome value :=
  match a, b with
  | VNum x, VNum y => outcome_map VNum (number_pow float_pow x y)
  | _, _ => Raise TypeError
  end.

(** ** Objects, the heap and the interpreter monad *)

Section ObjectModel.
Context {C : Type}.

(** An instance: its class and its [__dict__]. *)
Record object := Object { ob_class : C; ob_dict : gmap string value }.

(** A computation reads and writes the heap and returns or raises.  What
    was written before an exception stays written. *)
Definition M (A : Type) : Type := gmap loc object -> outcome A * gmap loc object.

Definition ret {A} (a : A) : M A := fun h => (Ret a, h).

Definition raise {A} (e : exn) : M A := fun h => (Raise e, h).

Definition bind {A B} (m : M A) (k : A -> M B) : M B := fun h =>
  match m h with
  | (Ret a, h') => k a h'
  | (Raise e, h') => (Raise e, h')
  end.

Definition lift {A} (o : outcome A) : M A := fun h => (o, h).

(** [self.a] for a data attribute. *)
Definition getattr (self : loc) (a : string) : M value := fun h =>
  match h !! self with
  | None => (Raise SystemError, h)
  | Some o =>
      match ob_dict o !! a with
      | Some v => (Ret v, h)
      | None => (Raise AttributeError, h)
      end
  end.

(** [self.a = v]. *)
Definition setattr (self : loc) (a : string) (v : value) : M unit := fun h =>
  match h !! self with
  | None => (Raise SystemError, h)
  | Some o => (Ret tt, <[self := Object (ob_class o) (<[a := v]> (ob_dict o))]> h)
  end.

(** A method takes [self] and the positional arguments. *)
Definition method : Type := loc -> list value -> M value.

(** Binding of positional arguments to a function's parameters: a call
    with the wrong number of arguments raises [TypeError]. *)
Definition def0 (f : loc -> M value) : method := fun self args =>
  match args with
  | [] => f self
  | _ => raise TypeError
  end.

Definition def1 (f : loc -> value -> M value) : method := fun self args =>
  match args with
  | [a] => f self a
  | _ => raise TypeError
  end.

Definition def2 (f : loc -> value -> value -> M value) : method := fun self args =>
  match args with
  | [a; b] => f self a b
  | _ => raise TypeError
  end.

(** The class table of a module: each class's MRO (itself first, [object]
    left out) and the functions of its body. *)
Variable mro : C -> list C.
Variable class_body : C -> list (string * method).

Fixpoint assoc {A} (name : string) (l : list (string * A)) : option A :=
  match l with
  | [] => None
  | (k, v) :: l' => if String.eqb k name then Some v else assoc name l'
  end.

Fixpoint resolve_in (cs : list C) (name : string) : option method :=
  match cs with
  | [] => None
  | c :: cs' =>
      match assoc name (class_body c) with
      | Some m => Some m
      | None => resolve_in cs' name
      end
  end.

(** Method lookup along the MRO. *)
Definition resolve (c : C) (name : string) : option method :=
  resolve_in (mro c) name.

(** A call of the method [name] on [self] with positional arguments. *)
Definition call_method (self : loc) (name : string) (args : list value) : M value :=
  fun h =>
    match h !! self with
    | None => (Raise SystemError, h)
    | Some o =>
        match resolve (ob_class o) name with
        | Some m => m self args h
        | None => (Raise AttributeError, h)
        end
    end.

(** Instantiation of class [c]: a new instance with an empty [__dict__],
    then [__init__] on the arguments; [__init__] must return [None], and
    a class without an [__init__] takes no arguments. *)
Definition new (c : C) (args : list value) : M value := fun h =>
  let l := fresh (dom h) in
  let h1 := <[l := Object c ∅]> h in
  match resolve c "__init__" with
  | None =>
      match args with
      | [] => (Ret (VRef l), h1)
      | _ => (Raise TypeError, h1)
      end
  | Some init =>
      match init l args h1 with
      | (Ret VNone, h2) => (Ret (VRef l), h2)
      | (Ret _, h2) => (Raise TypeError, h2)
      | (Raise e, h2) => (Raise e, h2)
      end
  end.

(** The value a data attribute holds in a heap, if any. *)
Definition attr (h : gmap loc object) (l : loc) (a : string) : option value :=
  o ← h !! l; ob_dict o !! a.

End ObjectModel.

Arguments object C : clear implicits.
Arguments M C A : clear implicits.
Arguments method C : clear implicits.

Declare Scope py_scope.
Delimit Scope py_scope with py.
Notation "'let*' x := m 'in' k" := (bind m (fun x => k))
  (at level 10, x name, m at level 100, k at level 200) : py_scope.
Notation "'exec' m 'in' k" := (bind m (fun _ => k))
  (at level 10, m at level 100, k at level 200) : py_scope.

End Py.

(** ** [test_files/sample.py]

    The module's imports ([os], [sys], [pathlib.Path]) are used by none of
    its definitions and are left out. *)

Module sample.
Import Py.
Local Open Scope py_scope.

(** The classes of the module. *)
Inductive class := Calculator | ScientificCalculator.

Section libm.
(** The interpreter's float power (the platform's [pow] and the special
    cases around it), on two binary64 operands. *)
Variable float_pow : float -> float -> outcome number.

(** [def simple_function(x, y): return x + y] (lines 7-9). *)
Definition simple_function (x y : value) : M class value :=
  lift (binary_add x y).

(** [Calculator.__init__(self, name)]: [self.name = name] (lines 14-15). *)
Definition Calculator___init__ (self : loc) (name : value) : M class value :=
  exec setattr self "name" name in
  ret VNone.

(** [Calculator.add(self, a, b)]: [return a + b] (lines 17-19). *)
Definition Calculator_add (self : loc) (a b : value) : M class value :=
  lift (binary_add a b).

(** [Calculator.subtract(self, a, b)]: [return a - b] (lines 21-23). *)
Definition Calculator_subtract (self : loc) (a b : value) : M class value :=
  lift (binary_sub a b).

(** [ScientificCalculator.power(self, base, exp)]: [return base ** exp]
    (lines 28-30). *)
Definition ScientificCalculator_power (self : loc) (base exp : value) : M class value :=
  lift (binary_pow float_pow base exp).

(** [class ScientificCalculator(Calculator)]. *)
Definition mro (c : class) : list class :=
  match c with
  | Calculator => [Calculator]
  | ScientificCalculator => [ScientificCalculator; Calculator]
  end.

Definition class_body (c : class) : list (string * method class) :=
  match c with
  | Calculator =>
      [("__init__", def1 Calculator___init__);
       ("add", def2 Calculator_add);
       ("subtract", def2 Calculator_subtract)]
  | ScientificCalculator =>
      [("power", def2 ScientificCalculator_power)]
  end.

Definition call := call_method mro class_body.
Definition construct := new mro class_body.

End libm.

End sample.

(** ** [test_files/test.py]

    Its imports are unused as well. *)

Module test.
Import Py.
Local Open Scope py_scope.

Inductive class := Calculator.

(** [Calculator.__init__(self)]: [self.value = 0] (lines 8-9). *)
Definition Calculator___init__ (self : loc) : M class value :=
  exec setattr self "value" (VNum (Int 0)) in
  ret VNone.

(** [Calculator.add(self, x)]: [self.value += x; return self.value]
    (lines 11-14).  On numbers and strings, which are immutable, [+=] is
    [self.value = self.value + x]. *)
Definition Calculator_add (self : loc) (x : value) : M class value :=
  let* v := getattr self "value" in
  let* v' := lift (binary_add v x) in
  exec setattr self "value" v' in
  getattr self "value".

(** [Calculator.subtract(self, x)]: [self.value -= x; return self.value]
    (lines 16-19). *)
Definition Calculator_subtract (self : loc) (x : value) : M class value :=
  let* v := getattr self "value" in
  let* v' := lift (binary_sub v x) in
  exec setattr self "value" v' in
  getattr self "value".

(** [def standalone_function(a, b): return a + b] (lines 21-23). *)
Definition standalone_function (a b : value) : M class value :=
  lift (binary_add a b).

(** [def another_function(): pass] (lines 25-27); a function that falls
    off its end returns [None]. *)
Definition another_function : M class value :=
  ret VNone.

Definition mro (c : class) : list class :=
  match c with
  | Calculator => [Calculator]
  end.

Definition class_body (c : class) : list (string * method class) :=
  match c with
  | Calculator =>
      [("__init__", def0 Calculator___init__);
       ("add", def1 Calculator_add);
       ("subtract", def1 Calculator_subtract)]
  end.

Definition call := call_method mro class_body.
Definition construct := new mro class_body.

End test.

(** ** Concrete heaps and sessions *)

Module Scenarios.
Import Py.
Local Open Scope py_scope.

(** A heap with one [ScientificCalculator] and a heap with one
    [Calculator], as [ScientificCalculator("sci")] and [Calculator("basic")]
    build them from the empty heap. *)
Definition sci_heap : gmap loc (object sample.class) :=
  {[ 1%positive := Object sample.ScientificCalculator {["name" := VStr "sci"]} ]}.
Definition basic_heap : gmap loc (object sample.class) :=
  {[ 1%positive := Object sample.Calculator {["name" := VStr "basic"]} ]}.

(** An accumulator holding the [int] [3], as [c = Calculator(); c.add(3)]
    builds it from the empty heap. *)
Definition three_heap : gmap loc (object test.class) :=
  {[ 1%positive := Object test.Calculator {["value" := VNum (Int 3)]} ]}.

(** The session [c = Calculator(); c.add(1.0); c.add(1e20);
    c.subtract(1e20)], reading [c.value] before and after the last pair of
    calls. *)
Definition rounding_session : M test.class (list value) :=
  let* r := test.construct test.Calculator [] in
  match r with
  | VRef c =>
      exec test.call c "add" [VNum (Float 1)] in
      let* before := getattr c "value" in
      let* r1 := test.call c "add" [VNum (Float 1e20)] in
      let* r2 := test.call c "subtract" [VNum (Float 1e20)] in
      let* after := getattr c "value" in
      ret [before; r1; r2; after]
  | _ => raise TypeError
  end.

(** An accumulator whose [value] is the float [-0.0]. *)
Definition neg_zero_heap : gmap loc (object test.class) :=
  {[ 1%positive := Object test.Calculator {["value" := VNum (Float neg_zero)]} ]}.

End Scenarios.

(** ** Sessions: a sequence of method calls on one receiver *)

Module Sessions.
Import Py.
Local Open Scope py_scope.

Section CallAll.
Context {C : Type}.
Variable call : loc -> string -> list value -> M C value.

(** [self.m1(args1); self.m2(args2); ...], collecting the returned values;
    the first exception ends the session. *)
Fixpoint call_all (self : loc) (calls : list (string * list value))
    : M C (list value) :=
  match calls with
  | [] => ret []
  | (m, args) :: rest =>
      let* r := call self m args in
      let* rs := call_all self rest in
      ret (r :: rs)
  end.

End CallAll.

(** A step of an integer session on the accumulator: [add(x)] or
    [subtract(x)] with an [int] [x]. *)
Inductive step :=
  | add_int (x : Z)
  | subtract_int (x : Z).

Definition to_call (s : step) : string * list value :=
  match s with
  | add_int x => ("add", [VNum (Int x)])
  | subtract_int x => ("subtract", [VNum (Int x)])
  end.

(** What a step contributes to the total. *)
Definition delta (s : step) : Z :=
  match s with
  | add_int x => x
  | subtract_int x => - x
  end.

(** The running totals of a session that starts at [v]. *)
Fixpoint totals (v : Z) (steps : list step) : list Z :=
  match steps with
  | [] => []
  | s :: rest => (v + delta s) :: totals (v + delta s) rest
  end.

Fixpoint net (steps : list step) : Z :=
  match steps with
  | [] => 0
  | s :: rest => delta s + net rest
  end.

End Sessions.

(** * Properties *)

(** ** Facts about binary64 arithmetic and the conversion from [int] *)

Module PyFacts.
Import Py.

Lemma SFopp_involutive (s : spec_float) : SFopp (SFopp s) = s.
Proof. destruct s as [b|b| |b m e]; simpl; try rewrite negb_involutive; reflexivity. Qed.

Lemma float_opp_involutive (x : float) : (- - x)%float = x.
Proof.
  apply Prim2SF_inj. rewrite !opp_spec. apply SFopp_involutive.
Qed.

(** Subtraction is addition of the opposite, on every pair of binary64
    values (signed zeros, infinities and NaN included). *)
Lemma SFsub_add_opp (x y : spec_float) :
  SFsub prec emax x y = SFadd prec emax x (SFopp y).
Proof.
  destruct x as [sx|sx| |sx mx ex], y as [sy|sy| |sy my ey]; simpl;
    try reflexivity;
    destruct sx, sy; reflexivity.
Qed.

Lemma float_sub_add_opp (x y : float) : (x - y)%float = (x + - y)%float.
Proof.
  apply Prim2SF_inj.
  rewrite sub_spec, add_spec, opp_spec. apply SFsub_add_opp.
Qed.

(** Rounding is symmetric: the sign only labels the result. *)
Lemma binary_round_opp (m : positive) (e : Z) :
  binary_round prec emax true m e = SFopp (binary_round prec emax false m e).
Proof.
  unfold binary_round, binary_round_aux.
  destruct (shl_align _ _ _) as [mz ez].
  destruct (shr_fexp _ _ _ _ _) as [mrs' e'].
  destruct (shr_fexp _ _ _ _ _) as [mrs'' e''].
  destruct (shr_m mrs'') as [|p|p]; simpl; try reflexivity.
  destruct (e'' <=? emax - prec); reflexivity.
Qed.

Lemma binary_normalize_opp (z : Z) :
  z <> 0 ->
  binary_normalize prec emax (- z) 0 false
  = SFopp (binary_normalize prec emax z 0 false).
Proof.
  destruct z as [|p|p]; intros Hz; [congruence| |]; simpl.
  - apply binary_round_opp.
  - rewrite binary_round_opp, SFopp_involutive. reflexivity.
Qed.

Lemma SF2Prim_opp (s : spec_float) : SF2Prim (SFopp s) = (- SF2Prim s)%float.
Proof.
  destruct s as [[|]|[|]| |[|] m e]; simpl; try reflexivity.
  symmetry. apply float_opp_involutive.
Qed.

(** [float(-z) = -float(z)] for a non-zero [int]; on [0] the left side is
    [0.0] and the right side [-0.0]. *)
Lemma int_to_float_opp (z : Z) :
  z <> 0 ->
  int_to_float (- z) = outcome_map (fun f => (- f)%float) (int_to_float z).
Proof.
  intros Hz. unfold int_to_float. rewrite binary_normalize_opp by assumption.
  destruct (binary_normalize prec emax z 0 false) as [b|b| |b m e] eqn:E;
    unfold outcome_map; cbn [SFopp outcome_bind];
    try rewrite <- SF2Prim_opp; reflexivity.
Qed.

Lemma float_sub_zero (x : float) :
  x <> neg_zero -> (x - 0)%float = (x + 0)%float.
Proof.
  intros Hx. apply Prim2SF_inj. rewrite sub_spec, add_spec.
  change (Prim2SF 0) with (S754_zero false).
  destruct (Prim2SF x) as [[|]|b| |b m e] eqn:E; try reflexivity.
  exfalso. apply Hx. rewrite <- (SF2Prim_Prim2SF x), E. reflexivity.
Qed.

(** [a - b] is [a + (-b)], the one exception being [-0.0 - 0] with an [int]
    zero, which is [-0.0] while [-0.0 + (-0)] is [0.0]. *)
Lemma number_sub_add_neg (a b : number) :
  ~ (a = Float neg_zero /\ b = Int 0) ->
  number_sub a b = number_add a (number_neg b).
Proof.
  intros Hex. destruct a as [x|x], b as [y|y]; simpl.
  - reflexivity.
  - unfold float_binop; simpl. destruct (int_to_float x); simpl; [|reflexivity].
    rewrite float_sub_add_opp. reflexivity.
  - unfold float_binop; simpl.
    destruct (Z.eq_dec y 0) as [->|Hy].
    + change (int_to_float (- 0)) with (int_to_float 0).
      change (int_to_float 0) with (@Ret float 0%float). simpl.
      rewrite float_sub_zero; [reflexivity|].
      intros ->. apply Hex. split; reflexivity.
    + rewrite int_to_float_opp by assumption.
      destruct (int_to_float y); simpl; [|reflexivity].
      rewrite float_sub_add_opp. reflexivity.
  - unfold float_binop; simpl. rewrite float_sub_add_opp. reflexivity.
Qed.

End PyFacts.

(** ** [test_files/sample.py]: the named calculator and its extension *)

Module SampleSpec.
Import Py PyFacts sample Scenarios.
Local Open Scope py_scope.

Lemma construct_named (fp : float -> float -> outcome number)
    (c : class) (name : value) (h : gmap loc (object class)) :
  construct fp c [name] h
  = (Ret (VRef (fresh (dom h))),
     <[fresh (dom h) := Object c {["name" := name]}]> h).
Proof.
  unfold construct, new.
  assert (Hinit : resolve mro (class_body fp) c "__init__"
                  = Some (def1 Calculator___init__)) by (destruct c; reflexivity).
  rewrite Hinit. unfold def1, Calculator___init__, bind, setattr, ret.
  rewrite lookup_insert_eq. cbn [ob_class ob_dict].
  rewrite insert_insert_eq, insert_empty. reflexivity.
Qed.

Lemma def2_pure (f : loc -> value -> value -> M class value) :
  (forall self a b h, snd (f self a b h) = h) ->
  forall self args h, snd (def2 f self args h) = h.
Proof.
  intros Hf self args h. unfold def2.
  destruct args as [|a [|b [|c args]]]; try reflexivity. apply Hf.
Qed.

Lemma call_pure (fp : float -> float -> outcome number) (name : string)
    (self : loc) (args : list value) (h : gmap loc (object class)) :
  (forall c m, resolve mro (class_body fp) c name = Some m ->
     forall self args h, snd (m self args h) = h) ->
  snd (call fp self name args h) = h.
Proof.
  intros Hm. unfold call, call_method.
  destruct (h !! self) as [o|]; [|reflexivity].
  destruct (resolve mro (class_body fp) (ob_class o) name) as [m|] eqn:E;
    [|reflexivity].
  eapply Hm, E.
Qed.

(** The method table, as lookup along the MRO finds it. *)
Lemma resolve_add (fp : float -> float -> outcome number) (c : class) :
  resolve mro (class_body fp) c "add" = Some (def2 Calculator_add).
Proof. destruct c; reflexivity. Qed.

Lemma resolve_subtract (fp : float -> float -> outcome number) (c : class) :
  resolve mro (class_body fp) c "subtract" = Some (def2 Calculator_subtract).
Proof. destruct c; reflexivity. Qed.

Lemma resolve_power (fp : float -> float -> outcome number) (c : class) :
  resolve mro (class_body fp) c "power"
  = match c with
    | Calculator => None
    | ScientificCalculator => Some (def2 (ScientificCalculator_power fp))
    end.
Proof. destruct c; reflexivity. Qed.

Section libm.
Variable float_pow : float -> float -> outcome number.

(** C1: for all numbers [a] and [b], [Calculator.add(a, b)] returns [a + b]
  and [Calculator.subtract(a, b)] returns [a - b], and the heap (the
  instance and every other object) is left as it was.  On two [int]s the
  results are the exact sum and difference, on two [float]s the binary64
  ones. *)
Theorem C1_add_subtract_pure (self : loc) (h : gmap loc (object class)) :
(forall a b : number,
   Calculator_add self (VNum a) (VNum b) h
     = (outcome_map VNum (number_add a b), h)
   /\ Calculator_subtract self (VNum a) (VNum b) h
     = (outcome_map VNum (number_sub a b), h))
/\ (forall x y : Z,
   Calculator_add self (VNum (Int x)) (VNum (Int y)) h
     = (Ret (VNum (Int (x + y))), h)
   /\ Calculator_subtract self (VNum (Int x)) (VNum (Int y)) h
     = (Ret (VNum (Int (x - y))), h))
/\ (forall x y : float,
   Calculator_add self (VNum (Float x)) (VNum (Float y)) h
     = (Ret (VNum (Float (x + y)%float)), h)
   /\ Calculator_subtract self (VNum (Float x)) (VNum (Float y)) h
     = (Ret (VNum (Float (x - y)%float)), h)).
Proof.
repeat split.
Qed.

(** C3: for every number [base] and every non-negative [int] [exp],
  [ScientificCalculator.power(base, exp)] returns [base ** exp] and leaves
  the heap alone; for an [int] base this is the exact power
  [base ^ exp], for a [float] base it is the interpreter's float power of
  [base] and [float(exp)]. *)
Theorem C3_power (self : loc) (base : number) (exp : Z)
  (h : gmap loc (object class)) :
0 <= exp ->
ScientificCalculator_power float_pow self (VNum base) (VNum (Int exp)) h
  = (outcome_map VNum (number_pow float_pow base (Int exp)), h)
/\ (forall b : Z, base = Int b ->
      ScientificCalculator_power float_pow self (VNum base) (VNum (Int exp)) h
        = (Ret (VNum (Int (b ^ exp))), h))
/\ (forall f : float, base = Float f ->
      ScientificCalculator_power float_pow self (VNum base) (VNum (Int exp)) h
        = (outcome_map VNum
             (outcome_bind (int_to_float exp) (fun e => float_pow f e)), h)).
Proof.
intros Hexp. split; [reflexivity|]. split.
- intros b ->. unfold ScientificCalculator_power, lift. simpl.
  apply Z.leb_le in Hexp. rewrite Hexp. reflexivity.
- intros f ->. reflexivity.
Qed.

(** C8: constructing a [Calculator] or a [ScientificCalculator] stores the
  argument, whatever value it is, under [name] in the new instance and
  touches nothing else; [add], [subtract] and [power], called on any
  receiver with any arguments, leave the heap (so every [name]) as it was. *)
Theorem C8_name_set_at_construction_only (c : class) (name : value)
  (h : gmap loc (object class)) :
construct float_pow c [name] h
  = (Ret (VRef (fresh (dom h))),
     <[fresh (dom h) := Object c {["name" := name]}]> h)
/\ h !! fresh (dom h) = None
/\ attr (snd (construct float_pow c [name] h)) (fresh (dom h)) "name" = Some name
/\ (forall (self : loc) (args : list value) (h' : gmap loc (object class)),
      snd (call float_pow self "add" args h') = h'
      /\ snd (call float_pow self "subtract" args h') = h'
      /\ snd (call float_pow self "power" args h') = h').
Proof.
split; [apply construct_named|]. split.
{ apply not_elem_of_dom, is_fresh. }
split.
{ rewrite construct_named. unfold attr. cbn [snd].
  rewrite lookup_insert_eq. cbn. apply lookup_singleton_eq. }
intros self args h'.
repeat split; apply call_pure; intros k m E.
- rewrite resolve_add in E. injection E as <-. apply def2_pure. reflexivity.
- rewrite resolve_subtract in E. injection E as <-. apply def2_pure. reflexivity.
- rewrite resolve_power in E. destruct k; [discriminate E|].
  injection E as <-. apply def2_pure. reflexivity.
Qed.

(** C9: a [ScientificCalculator] exposes [add], [subtract] and [power];
  [add] and [subtract] (and [__init__]) are the very functions of
  [Calculator], so on a [ScientificCalculator] receiver they return, for
  every argument list, what they return on a [Calculator] receiver, and
  change nothing; a new instance carries the attribute [name] and no
  other; and [power(2, 10)] is [1024]. *)
Theorem C9_scientific_extends_named
  (h : gmap loc (object class)) (s : loc) (o : object class)
  (h' : gmap loc (object class)) (s' : loc) (o' : object class)
  (args : list value) :
h !! s = Some o -> ob_class o = ScientificCalculator ->
h' !! s' = Some o' -> ob_class o' = Calculator ->
(resolve mro (class_body float_pow) ScientificCalculator "add"
   = Some (def2 Calculator_add)
 /\ resolve mro (class_body float_pow) ScientificCalculator "subtract"
   = Some (def2 Calculator_subtract)
 /\ resolve mro (class_body float_pow) ScientificCalculator "power"
   = Some (def2 (ScientificCalculator_power float_pow)))
/\ (forall name : string,
      name <> "power" ->
      resolve mro (class_body float_pow) ScientificCalculator name
      = resolve mro (class_body float_pow) Calculator name)
/\ (call float_pow s "add" args h
      = (fst (call float_pow s' "add" args h'), h)
    /\ call float_pow s "subtract" args h
      = (fst (call float_pow s' "subtract" args h'), h))
/\ (forall (name : value) (h0 : gmap loc (object class)),
      snd (construct float_pow ScientificCalculator [name] h0)
      = <[fresh (dom h0) := Object ScientificCalculator {["name" := name]}]> h0
      /\ snd (construct float_pow Calculator [name] h0)
      = <[fresh (dom h0) := Object Calculator {["name" := name]}]> h0)
/\ call float_pow s "power" [VNum (Int 2); VNum (Int 10)] h
     = (Ret (VNum (Int 1024)), h).
Proof.
intros Hs Hc Hs' Hc'.
split; [repeat split|]. split.
{ intros name Hname. unfold resolve. cbn [mro resolve_in class_body assoc].
  destruct (String.eqb_spec "power" name) as [E|_]; [congruence|].
  reflexivity. }
split.
{ unfold call, call_method. rewrite Hs, Hs', Hc, Hc'. cbn.
  split; destruct args as [|a [|b [|c args]]]; reflexivity. }
split.
{ intros name h0. rewrite !construct_named. split; reflexivity. }
unfold call, call_method. rewrite Hs, Hc. reflexivity.
Qed.

End libm.

Lemma C3_power_witness :
  0 <= 10
  /\ ScientificCalculator_power (fun _ _ => Raise OverflowError) 1%positive
       (VNum (Int 2)) (VNum (Int 10)) ∅
     = (Ret (VNum (Int 1024)), ∅).
Proof.
  split; [lia|].
  exact (proj1 (proj2 (C3_power (fun _ _ => Raise OverflowError) 1%positive
                         (Int 2) 10 ∅ ltac:(lia))) 2 eq_refl).
Defined.

Lemma C9_scientific_extends_named_witness :
  (sci_heap !! 1%positive = Some (Object ScientificCalculator {["name" := VStr "sci"]})
   /\ basic_heap !! 1%positive = Some (Object Calculator {["name" := VStr "basic"]}))
  /\ call (fun _ _ => Raise OverflowError) 1%positive "add"
       [VNum (Int 2); VNum (Int 3)] sci_heap
     = (fst (call (fun _ _ => Raise OverflowError) 1%positive "add"
          [VNum (Int 2); VNum (Int 3)] basic_heap), sci_heap)
  /\ call (fun _ _ => Raise OverflowError) 1%positive "power"
       [VNum (Int 2); VNum (Int 10)] sci_heap
     = (Ret (VNum (Int 1024)), sci_heap).
Proof.
  split; [split; reflexivity|].
  pose proof (C9_scientific_extends_named (fun _ _ => Raise OverflowError)
                sci_heap 1%positive _ basic_heap 1%positive _
                [VNum (Int 2); VNum (Int 3)]
                eq_refl eq_refl eq_refl eq_refl) as H.
  split; [exact (proj1 (proj1 (proj2 (proj2 H))))|exact (proj2 (proj2 (proj2 (proj2 H))))].
Defined.

End SampleSpec.

(** ** [test_files/test.py]: the accumulator *)

Module TestSpec.
Import Py PyFacts test Scenarios.
Local Open Scope py_scope.

(** The heap after [self.value = v] on the instance [o] at [self]. *)
Abbreviation stored h self o v :=
  (<[self := Object (ob_class o) (<["value" := v]> (ob_dict o))]> h).

(** Both methods are an in-place update [self.value = op(self.value, x)]
    followed by [return self.value]. *)
Lemma inplace_cases (op : value -> value -> outcome value)
    (self : loc) (x : value) (h : gmap loc (object class)) :
  (let* v0 := getattr self "value" in
   let* v' := lift (op v0 x) in
   exec setattr self "value" v' in
   getattr self "value") h
  = match h !! self with
    | None => (Raise SystemError, h)
    | Some o =>
        match ob_dict o !! "value" with
        | None => (Raise AttributeError, h)
        | Some v =>
            match op v x with
            | Ret v' => (Ret v', stored h self o v')
            | Raise e => (Raise e, h)
            end
        end
    end.
Proof.
  unfold bind, getattr, lift, setattr.
  destruct (h !! self) as [o|] eqn:Hself; [|reflexivity].
  destruct (ob_dict o !! "value") as [v|]; [|reflexivity].
  destruct (op v x) as [v'|e]; [|reflexivity].
  rewrite Hself, lookup_insert_eq. cbn [ob_dict].
  rewrite lookup_insert_eq. reflexivity.
Qed.

Lemma inplace_update (op : value -> value -> outcome value)
    (self : loc) (x v : value) (o : object class) (h : gmap loc (object class)) :
  h !! self = Some o ->
  ob_dict o !! "value" = Some v ->
  (let* v0 := getattr self "value" in
   let* v' := lift (op v0 x) in
   exec setattr self "value" v' in
   getattr self "value") h
  = match op v x with
    | Ret v' => (Ret v', stored h self o v')
    | Raise e => (Raise e, h)
    end.
Proof.
  intros Hself Hval. rewrite inplace_cases, Hself, Hval. reflexivity.
Qed.

Lemma stored_stored (h : gmap loc (object class)) (self : loc)
    (o : object class) (v w : value) :
  stored (stored h self o v) self (Object (ob_class o) (<["value" := v]> (ob_dict o))) w
  = stored h self o w.
Proof. cbn [ob_class ob_dict]. rewrite !insert_insert_eq. reflexivity. Qed.

Lemma stored_same (h : gmap loc (object class)) (self : loc)
    (o : object class) (v : value) :
  h !! self = Some o ->
  ob_dict o !! "value" = Some v ->
  stored h self o v = h.
Proof.
  intros Hself Hval. rewrite (insert_id (ob_dict o)) by assumption.
  destruct o as [c d]. apply insert_id. assumption.
Qed.

Lemma construct_accumulator (h : gmap loc (object class)) :
  construct Calculator [] h
  = (Ret (VRef (fresh (dom h))),
     <[fresh (dom h) := Object Calculator {["value" := VNum (Int 0)]}]> h).
Proof.
  unfold construct, new. cbn [resolve resolve_in mro class_body assoc String.eqb].
  cbn. unfold def0, Calculator___init__, bind, setattr, ret.
  rewrite lookup_insert_eq. cbn [ob_class ob_dict].
  rewrite insert_insert_eq, insert_empty. reflexivity.
Qed.

Lemma add_number (h : gmap loc (object class)) (self : loc)
    (o : object class) (v x : number) :
  h !! self = Some o ->
  ob_dict o !! "value" = Some (VNum v) ->
  Calculator_add self (VNum x) h
  = match number_add v x with
    | Ret n => (Ret (VNum n), stored h self o (VNum n))
    | Raise e => (Raise e, h)
    end.
Proof.
  intros Hself Hval. unfold Calculator_add.
  rewrite (inplace_update binary_add self (VNum x) _ o h Hself Hval).
  cbn [binary_add]. destruct (number_add v x); reflexivity.
Qed.

Lemma subtract_number (h : gmap loc (object class)) (self : loc)
    (o : object class) (v x : number) :
  h !! self = Some o ->
  ob_dict o !! "value" = Some (VNum v) ->
  Calculator_subtract self (VNum x) h
  = match number_sub v x with
    | Ret n => (Ret (VNum n), stored h self o (VNum n))
    | Raise e => (Raise e, h)
    end.
Proof.
  intros Hself Hval. unfold Calculator_subtract.
  rewrite (inplace_update binary_sub self (VNum x) _ o h Hself Hval).
  cbn [binary_sub]. destruct (number_sub v x); reflexivity.
Qed.

(** C2: on an instance whose [value] is the number [v], [add(x)] stores
    [v + x] in [value] and returns it, and [subtract(x)] stores and returns
    [v - x]; nothing else in the heap changes.  (When [v + x] itself raises,
    which only the conversion of a huge [int] to [float] can do, the call
    raises the same exception and stores nothing.) *)
Theorem C2_accumulate (h : gmap loc (object class)) (self : loc)
    (o : object class) (v x : number) :
  h !! self = Some o ->
  ob_dict o !! "value" = Some (VNum v) ->
  Calculator_add self (VNum x) h
    = match number_add v x with
      | Ret n => (Ret (VNum n), stored h self o (VNum n))
      | Raise e => (Raise e, h)
      end
  /\ Calculator_subtract self (VNum x) h
    = match number_sub v x with
      | Ret n => (Ret (VNum n), stored h self o (VNum n))
      | Raise e => (Raise e, h)
      end
  /\ (forall n : number, number_add v x = Ret n ->
        attr (snd (Calculator_add self (VNum x) h)) self "value" = Some (VNum n)
        /\ fst (Calculator_add self (VNum x) h) = Ret (VNum n))
  /\ (forall n : number, number_sub v x = Ret n ->
        attr (snd (Calculator_subtract self (VNum x) h)) self "value" = Some (VNum n)
        /\ fst (Calculator_subtract self (VNum x) h) = Ret (VNum n))
  /\ (forall a b : Z, v = Int a -> x = Int b ->
        Calculator_add self (VNum x) h
          = (Ret (VNum (Int (a + b))), stored h self o (VNum (Int (a + b))))
        /\ Calculator_subtract self (VNum x) h
          = (Ret (VNum (Int (a - b))), stored h self o (VNum (Int (a - b))))).
Proof.
  intros Hself Hval.
  assert (Hadd := add_number h self o v x Hself Hval).
  assert (Hsub := subtract_number h self o v x Hself Hval).
  repeat apply conj.
  - exact Hadd.
  - exact Hsub.
  - intros n Hn. rewrite Hadd, Hn. cbn. unfold attr.
    rewrite lookup_insert_eq. cbn. rewrite lookup_insert_eq. split; reflexivity.
  - intros n Hn. rewrite Hsub, Hn. cbn. unfold attr.
    rewrite lookup_insert_eq. cbn. rewrite lookup_insert_eq. split; reflexivity.
  - intros a b -> ->. rewrite Hadd, Hsub. split; reflexivity.
Qed.

Lemma call_add (h : gmap loc (object class)) (self : loc) (o : object class)
    (x : value) :
  h !! self = Some o ->
  call self "add" [x] h = Calculator_add self x h.
Proof.
  intros Hself. unfold call, call_method. rewrite Hself.
  destruct (ob_class o). reflexivity.
Qed.

Lemma call_subtract (h : gmap loc (object class)) (self : loc) (o : object class)
    (x : value) :
  h !! self = Some o ->
  call self "subtract" [x] h = Calculator_subtract self x h.
Proof.
  intros Hself. unfold call, call_method. rewrite Hself.
  destruct (ob_class o). reflexivity.
Qed.

(** C4: [Calculator()] allocates a new instance whose only attribute is
    [value], holding the [int] [0]; [__init__] on an existing instance sets
    its [value] to [0]. *)
Theorem C4_constructor_zero (h : gmap loc (object class)) :
  construct Calculator [] h
    = (Ret (VRef (fresh (dom h))),
       <[fresh (dom h) := Object Calculator {["value" := VNum (Int 0)]}]> h)
  /\ h !! fresh (dom h) = None
  /\ attr (snd (construct Calculator [] h)) (fresh (dom h)) "value"
     = Some (VNum (Int 0))
  /\ (forall (self : loc) (o : object class),
        h !! self = Some o ->
        Calculator___init__ self h = (Ret VNone, stored h self o (VNum (Int 0)))).
Proof.
  split; [apply construct_accumulator|]. split.
  { apply not_elem_of_dom, is_fresh. }
  split.
  { rewrite construct_accumulator. unfold attr. cbn [snd].
    rewrite lookup_insert_eq. cbn. apply lookup_singleton_eq. }
  intros self o Hself. unfold Calculator___init__, bind, setattr, ret.
  rewrite Hself. reflexivity.
Qed.

(** C5: from any heap, [c = Calculator()] has [c.value == 0]; then
    [c.add(5)] returns [5] and leaves [c.value == 5]; then [c.subtract(2)]
    returns [3] and leaves [c.value == 3]. *)
Theorem C5_fresh_add_5_subtract_2 (h : gmap loc (object class)) :
  exists (c : loc) (h0 h1 h2 : gmap loc (object class)),
    construct Calculator [] h = (Ret (VRef c), h0)
    /\ attr h0 c "value" = Some (VNum (Int 0))
    /\ call c "add" [VNum (Int 5)] h0 = (Ret (VNum (Int 5)), h1)
    /\ attr h1 c "value" = Some (VNum (Int 5))
    /\ call c "subtract" [VNum (Int 2)] h1 = (Ret (VNum (Int 3)), h2)
    /\ attr h2 c "value" = Some (VNum (Int 3)).
Proof.
  set (c := fresh (dom h)).
  set (o0 := Object Calculator {["value" := VNum (Int 0)]}).
  set (h0 := <[c := o0]> h).
  set (o1 := Object Calculator (<["value" := VNum (Int 5)]> (ob_dict o0))).
  set (h1 := <[c := o1]> h0).
  set (o2 := Object Calculator (<["value" := VNum (Int 3)]> (ob_dict o1))).
  set (h2 := <[c := o2]> h1).
  assert (H0 : h0 !! c = Some o0) by apply lookup_insert_eq.
  assert (H1 : h1 !! c = Some o1) by apply lookup_insert_eq.
  assert (H2 : h2 !! c = Some o2) by apply lookup_insert_eq.
  assert (V0 : ob_dict o0 !! "value" = Some (VNum (Int 0)))
    by apply lookup_singleton_eq.
  assert (V1 : ob_dict o1 !! "value" = Some (VNum (Int 5)))
    by apply lookup_insert_eq.
  assert (V2 : ob_dict o2 !! "value" = Some (VNum (Int 3)))
    by apply lookup_insert_eq.
  exists c, h0, h1, h2. repeat apply conj.
  - apply construct_accumulator.
  - unfold attr. rewrite H0. exact V0.
  - rewrite (call_add _ _ _ _ H0).
    exact (add_number h0 c o0 (Int 0) (Int 5) H0 V0).
  - unfold attr. rewrite H1. exact V1.
  - rewrite (call_subtract _ _ _ _ H1).
    exact (subtract_number h1 c o1 (Int 5) (Int 2) H1 V1).
  - unfold attr. rewrite H2. exact V2.
Qed.

(** C7: [another_function()] returns [None] and leaves the heap, the only
    state there is, exactly as it found it. *)
Theorem C7_another_function_noop (h : gmap loc (object class)) :
  another_function h = (Ret VNone, h).
Proof. reflexivity. Qed.

(** [subtract(x)] and [add(-x)] agree on every heap, the signed-zero case
    of [number_sub_add_neg] apart. *)
Lemma subtract_is_add_neg (self : loc) (y : number) (h : gmap loc (object class)) :
  ~ (attr h self "value" = Some (VNum (Float neg_zero)) /\ y = Int 0) ->
  Calculator_subtract self (VNum y) h
  = Calculator_add self (VNum (number_neg y)) h.
Proof.
  intros Hex. unfold Calculator_subtract, Calculator_add, attr in *.
  rewrite !inplace_cases.
  destruct (h !! self) as [o|]; [|reflexivity]. cbn in Hex.
  destruct (ob_dict o !! "value") as [w|]; [|reflexivity].
  destruct w as [|n|t|l]; try reflexivity.
  cbn [binary_sub binary_add].
  rewrite number_sub_add_neg; [reflexivity|].
  intros [-> ->]. apply Hex. split; reflexivity.
Qed.

(** C10, as the code has it: on an instance whose [value] is an [int],
    [add(x)] followed by [subtract(x)] with an [int] [x] returns the
    original value and restores the whole heap; and for every heap and every
    number [x], [subtract(x)] returns and stores exactly what [add(-x)]
    does, unless [value] is the float [-0.0] and [x] the [int] [0]. *)
Theorem C10_add_then_subtract (h : gmap loc (object class)) (self : loc)
    (o : object class) (v x : Z) :
  h !! self = Some o ->
  ob_dict o !! "value" = Some (VNum (Int v)) ->
  (exec Calculator_add self (VNum (Int x)) in
   Calculator_subtract self (VNum (Int x))) h
    = (Ret (VNum (Int v)), h)
  /\ (forall (y : number) (h' : gmap loc (object class)),
        ~ (attr h' self "value" = Some (VNum (Float neg_zero)) /\ y = Int 0) ->
        Calculator_subtract self (VNum y) h'
        = Calculator_add self (VNum (number_neg y)) h').
Proof.
  intros Hself Hval. split.
  - unfold bind. rewrite (add_number h self o (Int v) (Int x) Hself Hval).
    cbn [number_add].
    rewrite (subtract_number _ self _ (Int (v + x)) (Int x)
               (lookup_insert_eq _ _ _) (lookup_insert_eq _ _ _)).
    cbn [number_sub]. rewrite stored_stored.
    replace (v + x - x) with v by lia.
    rewrite (stored_same h self o _ Hself Hval). reflexivity.
  - intros y h'. apply subtract_is_add_neg.
Qed.

Lemma C2_accumulate_witness :
  (three_heap !! 1%positive = Some (Object Calculator {["value" := VNum (Int 3)]})
   /\ ({["value" := VNum (Int 3)]} : gmap string value) !! "value"
      = Some (VNum (Int 3)))
  /\ fst (Calculator_add 1%positive (VNum (Int 4)) three_heap) = Ret (VNum (Int 7))
  /\ attr (snd (Calculator_add 1%positive (VNum (Int 4)) three_heap)) 1%positive "value"
     = Some (VNum (Int 7)).
Proof.
  split; [split; reflexivity|].
  pose proof (C2_accumulate three_heap 1%positive
                (Object Calculator {["value" := VNum (Int 3)]})
                (Int 3) (Int 4) eq_refl eq_refl) as H.
  destruct (proj1 (proj2 (proj2 H)) (Int 7) eq_refl) as [Hattr Hret].
  split; [exact Hret|exact Hattr].
Defined.

Lemma C10_add_then_subtract_witness :
  (three_heap !! 1%positive = Some (Object Calculator {["value" := VNum (Int 3)]})
   /\ ({["value" := VNum (Int 3)]} : gmap string value) !! "value"
      = Some (VNum (Int 3)))
  /\ (exec Calculator_add 1%positive (VNum (Int 4)) in
      Calculator_subtract 1%positive (VNum (Int 4))) three_heap
     = (Ret (VNum (Int 3)), three_heap).
Proof.
  split; [split; reflexivity|].
  exact (proj1 (C10_add_then_subtract three_heap 1%positive
                  (Object Calculator {["value" := VNum (Int 3)]})
                  3 4 eq_refl eq_refl)).
Defined.

(** C10 as stated fails on floats: with [value == 1.0], [add(1e20)] rounds
    the sum to [1e20], and [subtract(1e20)] then leaves [0.0], not [1.0]. *)
Lemma C10_float_rounding_counterexample :
  fst (rounding_session ∅)
  = Ret [VNum (Float 1); VNum (Float 1e20); VNum (Float 0); VNum (Float 0)]
  /\ number_eqb (Float 0) (Float 1) = Some false.
Proof. split; vm_compute; reflexivity. Qed.

(** The signed-zero exception is needed: on [value == -0.0], [subtract(0)]
    leaves [-0.0] where [add(-0)] leaves [0.0]. *)
Lemma subtract_zero_keeps_sign :
  fst (Calculator_subtract 1%positive (VNum (Int 0)) neg_zero_heap)
  = Ret (VNum (Float neg_zero))
  /\ fst (Calculator_add 1%positive (VNum (number_neg (Int 0))) neg_zero_heap)
  = Ret (VNum (Float zero)).
Proof. split; vm_compute; reflexivity. Qed.

End TestSpec.

(** ** The free functions of both modules *)

Module FreeFunctions.
Import Py.

(** C6: for all numbers [x] and [y], [simple_function(x, y)] and
    [standalone_function(x, y)] both return [x + y] and leave the heap as
    it was; on two [int]s that is the exact sum, and on [(2, 3)] it is [5]. *)
Theorem C6_free_functions_add
    (hs : gmap loc (object sample.class)) (ht : gmap loc (object test.class)) :
  (forall x y : number,
     sample.simple_function (VNum x) (VNum y) hs
       = (outcome_map VNum (number_add x y), hs)
     /\ test.standalone_function (VNum x) (VNum y) ht
       = (outcome_map VNum (number_add x y), ht))
  /\ (forall a b : Z,
     sample.simple_function (VNum (Int a)) (VNum (Int b)) hs
       = (Ret (VNum (Int (a + b))), hs)
     /\ test.standalone_function (VNum (Int a)) (VNum (Int b)) ht
       = (Ret (VNum (Int (a + b))), ht))
  /\ sample.simple_function (VNum (Int 2)) (VNum (Int 3)) hs
       = (Ret (VNum (Int 5)), hs)
  /\ test.standalone_function (VNum (Int 2)) (VNum (Int 3)) ht
       = (Ret (VNum (Int 5)), ht).
Proof. repeat split. Qed.

End FreeFunctions.

(** ** Further properties of the accumulator of [test_files/test.py] *)

Module TestExtra.
Import Py PyFacts test Scenarios Sessions TestSpec.
Local Open Scope py_scope.

Lemma net_permutation (steps steps' : list step) :
  Permutation steps steps' -> net steps = net steps'.
Proof.
  induction 1 as [|s l l' _ IH|s t l|l l' l'' _ IH1 _ IH2]; simpl; lia.
Qed.

Lemma int_session (steps : list step) :
  forall (h : gmap loc (object class)) (self : loc) (o : object class) (v : Z),
    h !! self = Some o ->
    ob_dict o !! "value" = Some (VNum (Int v)) ->
    call_all call self (map to_call steps) h
    = (Ret (map (fun z => VNum (Int z)) (totals v steps)),
       stored h self o (VNum (Int (v + net steps)))).
Proof.
  induction steps as [|s steps IH]; intros h self o v Hself Hval.
  - cbn [map call_all totals net]. unfold ret.
    rewrite Z.add_0_r, (stored_same h self o _ Hself Hval). reflexivity.
  - cbn [map call_all totals net]. unfold bind at 1.
    assert (Hstep : call self (fst (to_call s)) (snd (to_call s)) h
                    = (Ret (VNum (Int (v + delta s))),
                       stored h self o (VNum (Int (v + delta s))))).
    { destruct s as [x|x]; cbn [to_call fst snd delta].
      - rewrite (call_add _ _ _ _ Hself), (add_number _ _ _ _ _ Hself Hval).
        reflexivity.
      - rewrite (call_subtract _ _ _ _ Hself),
          (subtract_number _ _ _ _ _ Hself Hval).
        cbn [number_sub]. rewrite <- Z.add_opp_r. reflexivity. }
    destruct (to_call s) as [m args] eqn:Hcall. cbn [fst snd] in Hstep.
    rewrite Hstep. unfold bind at 1.
    rewrite (IH _ self _ (v + delta s)
               (lookup_insert_eq _ _ _) (lookup_insert_eq _ _ _)).
    unfold ret. rewrite stored_stored, Z.add_assoc. reflexivity.
Qed.





(** X1: a session of [add] and [subtract] calls with [int] arguments, on an
    accumulator whose [value] is the [int] [v], never raises; the calls
    return the running totals, and at the end [value] is [v] plus the sum
    of what was added minus the sum of what was subtracted, the rest of the
    heap being untouched. *)
Theorem X1_integer_session_totals (steps : list step)
    (h : gmap loc (object class)) (self : loc) (o : object class) (v : Z) :
  h !! self = Some o ->
  ob_dict o !! "value" = Some (VNum (Int v)) ->
  fst (call_all call self (map to_call steps) h)
    = Ret (map (fun z => VNum (Int z)) (totals v steps))
  /\ attr (snd (call_all call self (map to_call steps) h)) self "value"
    = Some (VNum (Int (v + net steps)))
  /\ snd (call_all call self (map to_call steps) h)
    = stored h self o (VNum (Int (v + net steps))).
Proof.
  intros Hself Hval. rewrite (int_session steps h self o v Hself Hval).
  cbn [fst snd]. repeat split.
  unfold attr. rewrite lookup_insert_eq. cbn. apply lookup_insert_eq.
Qed.

Lemma X1_integer_session_totals_witness :
  (three_heap !! 1%positive = Some (Object Calculator {["value" := VNum (Int 3)]})
   /\ ({["value" := VNum (Int 3)]} : gmap string value) !! "value"
      = Some (VNum (Int 3)))
  /\ fst (call_all call 1%positive
            (map to_call [add_int 5; subtract_int 2; add_int 10]) three_heap)
     = Ret [VNum (Int 8); VNum (Int 6); VNum (Int 16)].
Proof.
  split; [split; reflexivity|].
  exact (proj1 (X1_integer_session_totals [add_int 5; subtract_int 2; add_int 10]
                  three_heap 1%positive
                  (Object Calculator {["value" := VNum (Int 3)]}) 3
                  eq_refl eq_refl)).
Defined.

(** X2: on an [int] accumulator the order of [int] steps does not matter:
    two sessions that are permutations of each other end in the same
    heap. *)
Theorem X2_integer_session_order_irrelevant (steps steps' : list step)
    (h : gmap loc (object class)) (self : loc) (o : object class) (v : Z) :
  Permutation steps steps' ->
  h !! self = Some o ->
  ob_dict o !! "value" = Some (VNum (Int v)) ->
  snd (call_all call self (map to_call steps) h)
  = snd (call_all call self (map to_call steps') h).
Proof.
  intros Hperm Hself Hval.
  rewrite (int_session steps h self o v Hself Hval),
    (int_session steps' h self o v Hself Hval).
  cbn [snd]. rewrite (net_permutation _ _ Hperm). reflexivity.
Qed.

Lemma X2_integer_session_order_irrelevant_witness :
  snd (call_all call 1%positive
         (map to_call [add_int 5; subtract_int 2]) three_heap)
  = snd (call_all call 1%positive
         (map to_call [subtract_int 2; add_int 5]) three_heap).
Proof.
  exact (X2_integer_session_order_irrelevant
           [add_int 5; subtract_int 2] [subtract_int 2; add_int 5]
           three_heap 1%positive
           (Object Calculator {["value" := VNum (Int 3)]}) 3
           (perm_swap _ _ _) eq_refl eq_refl).
Defined.





Lemma fresh_not_allocated (h : gmap loc (object class)) (l : loc)
    (o : object class) :
  h !! l = Some o -> l <> fresh (dom h).
Proof.
  intros Hl ->. apply (is_fresh (dom h)). exact (elem_of_dom_2 _ _ _ Hl).
Qed.



(** X6: [Calculator(...)], with the right number of arguments (none) or a
    wrong one, leaves every object that was already in the heap as it was;
    the instance it builds is a new one. *)
Theorem X6_construct_isolated (args : list value)
    (h : gmap loc (object class)) (l : loc) (o : object class) :
  h !! l = Some o ->
  snd (construct Calculator args h) !! l = Some o
  /\ fst (construct Calculator args h) <> Ret (VRef l).
Proof.
  intros Hl. pose proof (fresh_not_allocated h l o Hl) as Hfresh.
  unfold construct, new.
  change (resolve mro class_body Calculator "__init__")
    with (Some (def0 Calculator___init__)).
  unfold def0. destruct args as [|x args].
  - unfold Calculator___init__, bind, setattr, ret.
    rewrite lookup_insert_eq. cbn [fst snd]. split.
    + rewrite !lookup_insert_ne by congruence. exact Hl.
    + congruence.
  - unfold raise. cbn [fst snd]. split.
    + rewrite lookup_insert_ne by congruence. exact Hl.
    + discriminate.
Qed.

Lemma X6_construct_isolated_witness :
  snd (construct Calculator [] three_heap) !! 1%positive
    = Some (Object Calculator {["value" := VNum (Int 3)]})
  /\ fst (construct Calculator [] three_heap) <> Ret (VRef 1%positive).
Proof.
  exact (X6_construct_isolated [] three_heap 1%positive
           (Object Calculator {["value" := VNum (Int 3)]}) eq_refl).
Defined.


End TestExtra.

(** ** Further properties of [test_files/sample.py] and of the free functions *)

Module SampleExtra.
Import Py PyFacts sample Scenarios SampleSpec.
Local Open Scope py_scope.

(** Binary64 addition commutes, signed zeros, infinities and NaN included. *)
Lemma SFadd_comm (x y : spec_float) :
  SFadd prec emax x y = SFadd prec emax y x.
Proof.
  destruct x as [sx|sx| |sx mx ex], y as [sy|sy| |sy my ey];
    cbn [SFadd]; try reflexivity; try (destruct sx, sy; reflexivity).
  rewrite (Z.min_comm ey ex), Z.add_comm. reflexivity.
Qed.

Lemma float_add_comm (x y : float) : (x + y)%float = (y + x)%float.
Proof. apply Prim2SF_inj. rewrite !add_spec. apply SFadd_comm. Qed.

Lemma number_add_comm (a b : number) : number_add a b = number_add b a.
Proof.
  destruct a as [x|x], b as [y|y]; cbn [number_add].
  - rewrite Z.add_comm. reflexivity.
  - unfold float_binop; cbn [as_float outcome_bind].
    destruct (int_to_float x); cbn [outcome_bind]; [|reflexivity].
    rewrite float_add_comm. reflexivity.
  - unfold float_binop; cbn [as_float outcome_bind].
    destruct (int_to_float y); cbn [outcome_bind]; [|reflexivity].
    rewrite float_add_comm. reflexivity.
  - unfold float_binop; cbn [as_float outcome_bind].
    rewrite float_add_comm. reflexivity.
Qed.

(** X8: addition of numbers commutes in all three adders:
    [Calculator.add(a, b)], [simple_function(a, b)] and
    [standalone_function(a, b)] return the same as with the arguments
    swapped, for [int]s, [float]s and mixed pairs (same value, or same
    exception). *)
Theorem X8_adders_commute (self : loc) (a b : number)
    (hs : gmap loc (object class)) (ht : gmap loc (object test.class)) :
  Calculator_add self (VNum a) (VNum b) hs = Calculator_add self (VNum b) (VNum a) hs
  /\ simple_function (VNum a) (VNum b) hs = simple_function (VNum b) (VNum a) hs
  /\ test.standalone_function (VNum a) (VNum b) ht
     = test.standalone_function (VNum b) (VNum a) ht.
Proof.
  unfold Calculator_add, simple_function, test.standalone_function, lift.
  cbn [binary_add]. rewrite (number_add_comm a b). repeat split.
Qed.




(** X10: [power] exists on [ScientificCalculator] only: on an instance of
    the base [Calculator], [power] with any arguments raises
    [AttributeError] and changes nothing. *)
Theorem X10_base_calculator_has_no_power (fp : float -> float -> outcome number)
    (self : loc) (o : object class) (args : list value)
    (h : gmap loc (object class)) :
  h !! self = Some o ->
  ob_class o = Calculator ->
  call fp self "power" args h = (Raise AttributeError, h).
Proof.
  intros Hself Hclass. unfold call, call_method.
  rewrite Hself, Hclass, resolve_power. reflexivity.
Qed.

Lemma X10_base_calculator_has_no_power_witness :
  call (fun _ _ => Raise OverflowError) 1%positive "power"
    [VNum (Int 2); VNum (Int 10)] basic_heap
  = (Raise AttributeError, basic_heap).
Proof.
  exact (X10_base_calculator_has_no_power (fun _ _ => Raise OverflowError)
           1%positive (Object Calculator {["name" := VStr "basic"]})
           [VNum (Int 2); VNum (Int 10)] basic_heap eq_refl eq_refl).
Defined.

(** X11: what [add] and [subtract] return depends on the arguments only:
    not on the receiver, its class or its [name], nor on anything else in
    the heap. *)
Theorem X11_receiver_irrelevant (fp : float -> float -> outcome number)
    (h h' : gmap loc (object class)) (s s' : loc) (o o' : object class)
    (args : list value) :
  h !! s = Some o ->
  h' !! s' = Some o' ->
  fst (call fp s "add" args h) = fst (call fp s' "add" args h')
  /\ fst (call fp s "subtract" args h) = fst (call fp s' "subtract" args h').
Proof.
  intros Hs Hs'. unfold call, call_method.
  rewrite Hs, Hs', !resolve_add, !resolve_subtract.
  unfold def2. split; destruct args as [|a [|b [|c args]]]; reflexivity.
Qed.

Lemma X11_receiver_irrelevant_witness :
  fst (call (fun _ _ => Raise OverflowError) 1%positive "add"
         [VNum (Int 2); VNum (Float 0.5)] sci_heap)
  = fst (call (fun _ _ => Raise OverflowError) 1%positive "add"
         [VNum (Int 2); VNum (Float 0.5)] basic_heap).
Proof.
  exact (proj1 (X11_receiver_irrelevant (fun _ _ => Raise OverflowError)
                  sci_heap basic_heap 1%positive 1%positive
                  (Object ScientificCalculator {["name" := VStr "sci"]})
                  (Object Calculator {["name" := VStr "basic"]})
                  [VNum (Int 2); VNum (Float 0.5)] eq_refl eq_refl)).
Defined.

(** X12: constructing a [Calculator] or a [ScientificCalculator], with one
    argument or with a wrong number of them, leaves every object that was
    already in the heap as it was (so every existing [name]), and never
    returns a reference to an existing object. *)
Theorem X12_construct_isolated (fp : float -> float -> outcome number)
    (c : class) (args : list value)
    (h : gmap loc (object class)) (l : loc) (o : object class) :
  h !! l = Some o ->
  snd (construct fp c args h) !! l = Some o
  /\ fst (construct fp c args h) <> Ret (VRef l).
Proof.
  intros Hl.
  assert (Hfresh : l <> fresh (dom h)).
  { intros ->. apply (is_fresh (dom h)). exact (elem_of_dom_2 _ _ _ Hl). }
  unfold construct, new.
  assert (Hinit : resolve mro (class_body fp) c "__init__"
                  = Some (def1 Calculator___init__)) by (destruct c; reflexivity).
  rewrite Hinit. unfold def1. destruct args as [|x [|y args]].
  - unfold raise. cbn [fst snd]. split; [|discriminate].
    rewrite lookup_insert_ne by congruence. exact Hl.
  - unfold Calculator___init__, bind, setattr, ret.
    rewrite lookup_insert_eq. cbn [fst snd]. split; [|congruence].
    rewrite !lookup_insert_ne by congruence. exact Hl.
  - unfold raise. cbn [fst snd]. split; [|discriminate].
    rewrite lookup_insert_ne by congruence. exact Hl.
Qed.

Lemma X12_construct_isolated_witness :
  snd (construct (fun _ _ => Raise OverflowError) ScientificCalculator
         [VStr "other"] basic_heap) !! 1%positive
    = Some (Object Calculator {["name" := VStr "basic"]})
  /\ fst (construct (fun _ _ => Raise OverflowError) ScientificCalculator
         [VStr "other"] basic_heap) <> Ret (VRef 1%positive).
Proof.
  exact (X12_construct_isolated (fun _ _ => Raise OverflowError)
           ScientificCalculator [VStr "other"] basic_heap 1%positive
           (Object Calculator {["name" := VStr "basic"]}) eq_refl).
Defined.

(** X13: [Calculator.subtract(a, b)] returns what [Calculator.add(a, -b)]
    returns, for all numbers [a] and [b] other than the pair of the float
    [-0.0] and the [int] [0]. *)
Theorem X13_subtract_is_add_of_opposite (self : loc) (a b : number)
    (h : gmap loc (object class)) :
  ~ (a = Float neg_zero /\ b = Int 0) ->
  Calculator_subtract self (VNum a) (VNum b) h
  = Calculator_add self (VNum a) (VNum (number_neg b)) h.
Proof.
  intros Hex. unfold Calculator_subtract, Calculator_add, lift.
  cbn [binary_sub binary_add]. rewrite (number_sub_add_neg a b Hex).
  reflexivity.
Qed.

Lemma X13_subtract_is_add_of_opposite_witness :
  Calculator_subtract 1%positive (VNum (Float 0.5)) (VNum (Int 2)) basic_heap
  = Calculator_add 1%positive (VNum (Float 0.5)) (VNum (number_neg (Int 2)))
      basic_heap.
Proof.
  assert (Hex : ~ (Float 0.5 = Float neg_zero /\ Int 2 = Int 0))
    by (intros [_ H]; discriminate H).
  exact (X13_subtract_is_add_of_opposite 1%positive (Float 0.5) (Int 2)
           basic_heap Hex).
Defined.

End SampleExtra.
